(** * Purple Bank Transfer: form validation, summary masking and wizard steps

    Shallow embedding of the transfer wizard of
    [src/unnamed/part_000] (TransferSummary, TransferForm with the
    domestic/international discriminated union) and of the Stripe-enabled
    international form of [src/src/components/TransferForm.tsx].

    JavaScript strings are sequences of UTF-16 code units; [String.length],
    [slice] and a non-unicode regular expression all work on code units,
    so a string is modelled as a [list N] of code units. *)

From Stdlib Require Import String Ascii ZArith List Bool Lia.
From stdpp Require Import base list gmap strings.

Open Scope N_scope.

(* ------------------------------------------------------------------ *)
(** ** JavaScript strings *)

Abbreviation jsstr := (list N).

(** An ASCII literal as a JS string. *)
Definition str (s : string) : jsstr := map N_of_ascii (list_ascii_of_string s).

(** [s.length] *)
Definition js_length (s : jsstr) : Z := Z.of_nat (length s).

(** Relative index of [String.prototype.slice]: a negative index counts
    from the end, and the result is clamped to [0, len]. *)
Definition rel_index (len i : Z) : Z :=
  if (i <? 0)%Z then Z.max (len + i) 0 else Z.min i len.

(** [s.slice(start)] ([end_ = None]) and [s.slice(start, end)]. *)
Definition js_slice (s : jsstr) (start : Z) (end_ : option Z) : jsstr :=
  let len := js_length s in
  let from := rel_index len start in
  let to := match end_ with Some e => rel_index len e | None => len end in
  take (Z.to_nat (to - from)) (drop (Z.to_nat from) s).

(** LineTerminator: LF, CR, LINE SEPARATOR, PARAGRAPH SEPARATOR. *)
Definition is_line_terminator (c : N) : bool :=
  (c =? 10) || (c =? 13) || (c =? 0x2028) || (c =? 0x2029).

(** [s.replace(/./g, '*')]: without the [s] flag [.] matches any single
    code unit except a line terminator; every match becomes ['*']. *)
Definition replace_dot_star (s : jsstr) : jsstr :=
  map (fun c => if is_line_terminator c then c else 42) s.

(** TransferSummary, account number:
    [accountNumber.slice(0, -4).replace(/./g, '*') + accountNumber.slice(-4)] *)
Definition mask_account (accountNumber : jsstr) : jsstr :=
  replace_dot_star (js_slice accountNumber 0 (Some (-4)%Z))
  ++ js_slice accountNumber (-4)%Z None.

(** The literal ['•••••••••'] (nine U+2022 BULLET). *)
Definition iban_mask_token : jsstr := repeat 0x2022 9.

(** TransferSummary, IBAN:
    [iban.slice(0, 4) + '•••••••••' + iban.slice(-4)] *)
Definition mask_iban (iban : jsstr) : jsstr :=
  js_slice iban 0 (Some 4%Z) ++ iban_mask_token ++ js_slice iban (-4)%Z None.

(* ------------------------------------------------------------------ *)
(** ** [Number(val)]: StringToNumber (ECMA-262, 7.1.4.1.1) *)

(** StrWhiteSpaceChar: WhiteSpace (TAB, VT, FF, ZWNBSP and the Zs
    category) and LineTerminator. *)
Definition is_str_whitespace (c : N) : bool :=
  (c =? 9) || (c =? 11) || (c =? 12) || (c =? 0xFEFF) || (c =? 32)
  || (c =? 0xA0) || (c =? 0x1680) || ((0x2000 <=? c) && (c <=? 0x200A))
  || (c =? 0x202F) || (c =? 0x205F) || (c =? 0x3000)
  || is_line_terminator c.

Fixpoint drop_ws (s : jsstr) : jsstr :=
  match s with
  | c :: r => if is_str_whitespace c then drop_ws r else s
  | [] => []
  end.

(** Leading and trailing StrWhiteSpace are ignored. *)
Definition trim_ws (s : jsstr) : jsstr := rev (drop_ws (rev (drop_ws s))).

(** Value of a digit code unit in [base], if it is one. *)
Definition digit_value (base : Z) (c : N) : option Z :=
  let v :=
    if (48 <=? c) && (c <=? 57) then Some (Z.of_N c - 48)%Z
    else if (97 <=? c) && (c <=? 122) then Some (Z.of_N c - 87)%Z
    else if (65 <=? c) && (c <=? 90) then Some (Z.of_N c - 55)%Z
    else None in
  match v with Some d => if (d <? base)%Z then Some d else None | None => None end.

(** The longest prefix of decimal digits, and the rest. *)
Fixpoint take_digits (s : jsstr) : jsstr * jsstr :=
  match s with
  | c :: r =>
      match digit_value 10 c with
      | Some _ => let '(ds, rest) := take_digits r in (c :: ds, rest)
      | None => ([], s)
      end
  | [] => ([], [])
  end.

(** MV of a digit sequence in [base] (all of [ds] are digits). *)
Definition digits_mv (base : Z) (ds : jsstr) : Z :=
  fold_left (fun acc c => acc * base + default 0 (digit_value base c))%Z ds 0%Z.

(** Result of [Number(s)] before rounding to a double:
    [JFin neg m e] is the mathematical value (-1)^neg * m * 10^e. *)
Inductive jsnum :=
  | JNaN
  | JInf (neg : bool)
  | JFin (neg : bool) (m : Z) (e : Z).

(** SignedInteger of an ExponentPart, covering the whole input. *)
Definition parse_signed_integer (s : jsstr) : option Z :=
  let '(sgn, r) :=
    match s with
    | c :: r => if c =? 43 then (1%Z, r) else if c =? 45 then ((-1)%Z, r) else (1%Z, s)
    | [] => (1%Z, s)
    end in
  let '(ds, rest) := take_digits r in
  match ds, rest with
  | _ :: _, [] => Some (sgn * digits_mv 10 ds)%Z
  | _, _ => None
  end.

(** Optional ExponentPart ([e] or [E]) closing the literal. *)
Definition parse_exponent_part (s : jsstr) : option Z :=
  match s with
  | [] => Some 0%Z
  | c :: r => if (c =? 101) || (c =? 69) then parse_signed_integer r else None
  end.

(** StrUnsignedDecimalLiteral, covering the whole input:
    [Infinity], [DecimalDigits . DecimalDigits? ExponentPart?],
    [. DecimalDigits ExponentPart?], [DecimalDigits ExponentPart?]. *)
Definition parse_unsigned_decimal (neg : bool) (s : jsstr) : option jsnum :=
  if decide (s = str "Infinity") then Some (JInf neg) else
  let '(ip, r1) := take_digits s in
  match r1 with
  | c :: r2 =>
      if c =? 46 then
        let '(fp, r3) := take_digits r2 in
        match ip, fp with
        | [], [] => None
        | _, _ =>
            match parse_exponent_part r3 with
            | Some e => Some (JFin neg (digits_mv 10 (ip ++ fp)) (e - Z.of_nat (length fp))%Z)
            | None => None
            end
        end
      else
        match ip with
        | [] => None
        | _ => match parse_exponent_part r1 with
               | Some e => Some (JFin neg (digits_mv 10 ip) e)
               | None => None
               end
        end
  | [] => match ip with [] => None | _ => Some (JFin neg (digits_mv 10 ip) 0) end
  end.

(** StrDecimalLiteral: an optional sign, then the unsigned literal. *)
Definition parse_decimal (s : jsstr) : option jsnum :=
  match s with
  | c :: r =>
      if c =? 43 then parse_unsigned_decimal false r
      else if c =? 45 then parse_unsigned_decimal true r
      else parse_unsigned_decimal false s
  | [] => None
  end.

(** NonDecimalIntegerLiteral: [0b], [0o], [0x] (either case), no sign,
    no separators. *)
Definition parse_non_decimal (s : jsstr) : option Z :=
  let digits base ds :=
    match ds with
    | [] => None
    | _ => if forallb (fun c => bool_decide (is_Some (digit_value base c))) ds
           then Some (digits_mv base ds) else None
    end in
  match s with
  | 48 :: p :: ds =>
      if (p =? 98) || (p =? 66) then digits 2%Z ds
      else if (p =? 111) || (p =? 79) then digits 8%Z ds
      else if (p =? 120) || (p =? 88) then digits 16%Z ds
      else None
  | _ => None
  end.

(** [Number(s)] for a string [s]. *)
Definition js_Number (s : jsstr) : jsnum :=
  match trim_ws s with
  | [] => JFin false 0 0
  | t =>
      match parse_non_decimal t with
      | Some v => JFin false v 0
      | None => default JNaN (parse_decimal t)
      end
  end.

(** [isNaN(n)] *)
Definition js_isNaN (n : jsnum) : bool :=
  match n with JNaN => true | _ => false end.

(** [n > 0] on the double that [n] rounds to (round to nearest, ties to
    even). A positive value rounds to +0 exactly when it is at most half
    the least subnormal, 2^-1075; a huge one rounds to +Infinity. *)
Definition js_gt_zero (n : jsnum) : bool :=
  match n with
  | JNaN => false
  | JInf neg => negb neg
  | JFin neg m e =>
      negb neg && (0 <? m)%Z
      && ((0 <=? e)%Z || (10 ^ (- e) <? m * 2 ^ 1075)%Z)
  end.

(** The [amount] refinement of both schemas:
    [(val) => !isNaN(Number(val)) && Number(val) > 0] *)
Definition amount_refine (val : jsstr) : bool :=
  negb (js_isNaN (js_Number val)) && js_gt_zero (js_Number val).

(* ------------------------------------------------------------------ *)
(** ** Validation schemas (zod) *)

(** Field paths of the forms. *)
Inductive field :=
  | FtransferType | FrecipientName | FaccountNumber | FroutingNumber
  | FbankName | Famount | Fdescription | Fiban | FswiftCode
  | FbankAddress | FbankCountry | Fcurrency
  | FuseStripe | FstripeAccountId | FstripePublishableKey.

#[global] Instance field_eq_dec : EqDecision field.
Proof. solve_decision. Defined.

(** A zod issue: its path and its message. *)
Abbreviation issue := (field * string)%type.

(** [z.string().min(n, { message })] *)
Definition z_min (n : nat) (msg : string) (s : jsstr) : list string :=
  if (length s <? n)%nat then [msg] else [].

(** [.max(n)]; without a message zod reports its default one. *)
Definition z_max (n : nat) (msg : string) (s : jsstr) : list string :=
  if (n <? length s)%nat then [msg] else [].

(** [.refine(check, { message })] *)
Definition z_refine (check : jsstr -> bool) (msg : string) (s : jsstr) : list string :=
  if check s then [] else [msg].

Definition issues_at (f : field) (msgs : list string) : list issue := map (pair f) msgs.

Module Domestic.
(** Output of [domesticFormSchema] ([transferType: "domestic"]). *)
Record t := mk {
  recipientName : jsstr;
  accountNumber : jsstr;
  routingNumber : jsstr;
  bankName : jsstr;
  amount : jsstr;
  description : option jsstr
}.
End Domestic.

Module International.
(** Output of [internationalFormSchema] ([transferType: "international"]). *)
Record t := mk {
  recipientName : jsstr;
  iban : jsstr;
  swiftCode : jsstr;
  bankName : jsstr;
  bankAddress : jsstr;
  bankCountry : jsstr;
  amount : jsstr;
  currency : jsstr;
  description : option jsstr
}.
End International.

(** [TransferFormValues]: the discriminated union on [transferType]. *)
Inductive TransferFormValues :=
  | Dom (d : Domestic.t)
  | Intl (i : International.t).

Definition msg_name := "Name must be at least 2 characters."%string.
Definition msg_amount := "Amount must be a positive number."%string.
Definition msg_bank := "Bank name is required."%string.

(** [domesticFormSchema]: the issues of every key, in key order. *)
Definition domestic_issues (d : Domestic.t) : list issue :=
  issues_at FrecipientName (z_min 2 msg_name (Domestic.recipientName d))
  ++ issues_at FaccountNumber
       (z_min 8 "Account number must be at least 8 characters." (Domestic.accountNumber d))
  ++ issues_at FroutingNumber
       (z_min 9 "Routing number must be 9 digits." (Domestic.routingNumber d)
        ++ z_max 9 "String must contain at most 9 character(s)" (Domestic.routingNumber d))
  ++ issues_at FbankName (z_min 2 msg_bank (Domestic.bankName d))
  ++ issues_at Famount (z_refine amount_refine msg_amount (Domestic.amount d)).

(** [internationalFormSchema] of [part_000]. *)
Definition international_issues (i : International.t) : list issue :=
  issues_at FrecipientName (z_min 2 msg_name (International.recipientName i))
  ++ issues_at Fiban (z_min 15 "IBAN must be at least 15 characters." (International.iban i))
  ++ issues_at FswiftCode
       (z_min 8 "SWIFT/BIC code must be at least 8 characters." (International.swiftCode i)
        ++ z_max 11 "String must contain at most 11 character(s)" (International.swiftCode i))
  ++ issues_at FbankName (z_min 2 msg_bank (International.bankName i))
  ++ issues_at FbankAddress (z_min 5 "Bank address is required." (International.bankAddress i))
  ++ issues_at FbankCountry (z_min 2 "Bank country is required." (International.bankCountry i))
  ++ issues_at Famount (z_refine amount_refine msg_amount (International.amount i))
  ++ issues_at Fcurrency (z_min 3 "Currency code is required." (International.currency i)).

(** The resolver's schema is the one of the active tab; the tab-change
    effect keeps [transferType] equal to the active tab, so the schema is
    selected by the draft's own variant. *)
Definition transfer_issues (v : TransferFormValues) : list issue :=
  match v with Dom d => domestic_issues d | Intl i => international_issues i end.

(** [schema.safeParse(values)]: the parsed values, or the issues. *)
Definition safe_parse (v : TransferFormValues) : TransferFormValues + list issue :=
  match transfer_issues v with [] => inl v | iss => inr iss end.

(** zodResolver: the error of a path is the first issue reported on it. *)
Fixpoint first_error (f : field) (iss : list issue) : option string :=
  match iss with
  | [] => None
  | (g, m) :: r => if decide (f = g) then Some m else first_error f r
  end.

Module StripeForm.
(** Output of the Stripe-enabled [internationalFormSchema] of
    [TransferForm.tsx] ([useStripe] defaults to [false]). *)
Record t := mk {
  recipientName : jsstr;
  iban : jsstr;
  swiftCode : jsstr;
  bankName : jsstr;
  bankAddress : jsstr;
  bankCountry : jsstr;
  amount : jsstr;
  currency : jsstr;
  description : option jsstr;
  useStripe : bool;
  stripeAccountId : option jsstr;
  stripePublishableKey : option jsstr
}.
End StripeForm.

(** [!s || s.length < n] for an optional string. *)
Definition missing_or_shorter (s : option jsstr) (n : nat) : bool :=
  match s with
  | None => true
  | Some [] => true
  | Some v => (length v <? n)%nat
  end.

(** The two [.refine] steps: run after the object's own checks (a failed
    length check leaves the object dirty, not aborted), each with its
    own path. *)
Definition stripe_refines (d : StripeForm.t) : list issue :=
  (if StripeForm.useStripe d && missing_or_shorter (StripeForm.stripeAccountId d) 3
   then [(FstripeAccountId, "Stripe Account ID is required when using Stripe."%string)]
   else [])
  ++ (if StripeForm.useStripe d && missing_or_shorter (StripeForm.stripePublishableKey d) 10
      then [(FstripePublishableKey, "Stripe Publishable Key is required when using Stripe."%string)]
      else []).

(** The object's own checks, key by key. *)
Definition stripe_object_issues (d : StripeForm.t) : list issue :=
  issues_at FrecipientName (z_min 2 msg_name (StripeForm.recipientName d))
  ++ issues_at Fiban (z_min 15 "IBAN must be at least 15 characters." (StripeForm.iban d))
  ++ issues_at FswiftCode
       (z_min 8 "SWIFT/BIC code must be at least 8 characters." (StripeForm.swiftCode d)
        ++ z_max 11 "String must contain at most 11 character(s)" (StripeForm.swiftCode d))
  ++ issues_at FbankName (z_min 2 msg_bank (StripeForm.bankName d))
  ++ issues_at FbankAddress (z_min 5 "Bank address is required." (StripeForm.bankAddress d))
  ++ issues_at FbankCountry (z_min 2 "Bank country is required." (StripeForm.bankCountry d))
  ++ issues_at Famount (z_refine amount_refine msg_amount (StripeForm.amount d))
  ++ issues_at Fcurrency (z_min 3 "Currency code is required." (StripeForm.currency d)).

(** The Stripe-enabled [internationalFormSchema]. *)
Definition stripe_form_issues (d : StripeForm.t) : list issue :=
  stripe_object_issues d ++ stripe_refines d.

(* ------------------------------------------------------------------ *)
(** ** The wizard ([TransferForm] of [part_000]) *)

Inductive tab := domestic | international.

(** [step]: ["form" | "summary" | "success"] *)
Inductive Step := form | summary | success.

Record wizard := mkWizard {
  activeTab : tab;
  step : Step;
  formData : option TransferFormValues;
  errors : list issue;       (** react-hook-form's [formState.errors] *)
  pending : nat;             (** scheduled, not yet fired [setTimeout]s *)
  confirmed : nat;           (** simulated submissions issued *)
  success_toasts : nat       (** "Transfer Successful!" toasts shown *)
}.

Definition set_step (w : wizard) (s : Step) : wizard :=
  mkWizard (activeTab w) s (formData w) (errors w) (pending w) (confirmed w) (success_toasts w).

(** [onSubmit]: [setFormData(data); setStep("summary")] *)
Definition onSubmit (w : wizard) (data : TransferFormValues) : wizard :=
  mkWizard (activeTab w) summary (Some data) (errors w) (pending w) (confirmed w) (success_toasts w).

(** [form.handleSubmit(onSubmit)]: on success the errors are cleared and
    [onSubmit] receives the parsed values; otherwise the errors are set. *)
Definition handleSubmit (w : wizard) (values : TransferFormValues) : wizard :=
  match safe_parse values with
  | inl data =>
      onSubmit (mkWizard (activeTab w) (step w) (formData w) [] (pending w) (confirmed w)
                  (success_toasts w)) data
  | inr iss =>
      mkWizard (activeTab w) (step w) (formData w) iss (pending w) (confirmed w) (success_toasts w)
  end.

(** [handleConfirmTransfer]: logs the transfer and schedules the
    simulated API call with [setTimeout(..., 1500)]. *)
Definition handleConfirmTransfer (w : wizard) : wizard :=
  mkWizard (activeTab w) (step w) (formData w) (errors w) (S (pending w)) (S (confirmed w))
    (success_toasts w).

(** One scheduled timeout fires: [toast(...); setStep("success")]. *)
Definition timer_fires (w : wizard) : wizard :=
  match pending w with
  | O => w
  | S p => mkWizard (activeTab w) success (formData w) (errors w) p (confirmed w)
             (S (success_toasts w))
  end.

Inductive event := Submit (v : TransferFormValues) | Confirm | Tick | EditBack.

Definition handle (w : wizard) (e : event) : wizard :=
  match e with
  | Submit v => handleSubmit w v
  | Confirm => handleConfirmTransfer w
  | Tick => timer_fires w
  | EditBack => set_step w form
  end.

Definition run (w : wizard) (es : list event) : wizard := fold_left handle es w.

(* ------------------------------------------------------------------ *)
(** ** Tab change ([useEffect] on [activeTab]) *)

Definition tab_name (t : tab) : jsstr :=
  match t with domestic => str "domestic" | international => str "international" end.

(** [form.getValues(k) || ""]: an absent or empty value gives [""]. *)
Definition or_empty (v : option jsstr) : jsstr :=
  match v with Some ((_ :: _) as s) => s | _ => [] end.

(** [form.reset({...})]: the form values become exactly this object. *)
Definition tab_change_reset (activeTab : tab) (vals : gmap string jsstr) : gmap string jsstr :=
  list_to_map (app
    [("transferType", tab_name activeTab);
     ("recipientName", or_empty (vals !! "recipientName"));
     ("amount", or_empty (vals !! "amount"));
     ("description", or_empty (vals !! "description"))]
    (match activeTab with
       | domestic =>
           [("accountNumber", []); ("routingNumber", []);
            ("bankName", or_empty (vals !! "bankName"))]
       | international =>
           [("iban", []); ("swiftCode", []); ("bankName", or_empty (vals !! "bankName"));
            ("bankAddress", []); ("bankCountry", []); ("currency", str "USD")]
       end))%string.

(** [useForm]'s [defaultValues] for the initial tab. *)
Definition default_values (activeTab : tab) : gmap string jsstr :=
  list_to_map (app
    [("transferType", tab_name activeTab); ("recipientName", []); ("amount", []);
     ("description", [])]
    (match activeTab with
       | domestic => [("accountNumber", []); ("routingNumber", []); ("bankName", [])]
       | international =>
           [("iban", []); ("swiftCode", []); ("bankName", []); ("bankAddress", []);
            ("bankCountry", []); ("currency", str "USD")]
       end))%string.

(* ------------------------------------------------------------------ *)
(** ** The rules of the spec, for comparison with the schemas *)

(** "the string must parse as a number strictly greater than zero" *)
Definition spec_amount_positive (s : jsstr) : bool :=
  match js_Number s with JNaN => false | n => js_gt_zero n end.

(** The per-field rules of the spec (section 3) for the required fields
    of the active variant; any other field has no rule. *)
Definition spec_field_ok (v : TransferFormValues) (f : field) : bool :=
  match v, f with
  | Dom d, FrecipientName => 2 <=? length (Domestic.recipientName d)
  | Dom d, FaccountNumber => 8 <=? length (Domestic.accountNumber d)
  | Dom d, FroutingNumber => length (Domestic.routingNumber d) =? 9
  | Dom d, FbankName => 2 <=? length (Domestic.bankName d)
  | Dom d, Famount => spec_amount_positive (Domestic.amount d)
  | Intl i, FrecipientName => 2 <=? length (International.recipientName i)
  | Intl i, Fiban => 15 <=? length (International.iban i)
  | Intl i, FswiftCode =>
      (8 <=? length (International.swiftCode i)) && (length (International.swiftCode i) <=? 11)
  | Intl i, FbankName => 2 <=? length (International.bankName i)
  | Intl i, FbankAddress => 5 <=? length (International.bankAddress i)
  | Intl i, FbankCountry => 2 <=? length (International.bankCountry i)
  | Intl i, Famount => spec_amount_positive (International.amount i)
  | Intl i, Fcurrency => 3 <=? length (International.currency i)
  | _, _ => true
  end%nat.

(** "has length at least [n]" for an optional Stripe field. *)
Definition has_min_length (s : option jsstr) (n : nat) : bool :=
  match s with Some v => (n <=? length v)%nat | None => false end.

(** Sample drafts. *)
Definition sample_domestic (accountNumber : jsstr) : Domestic.t :=
  Domestic.mk (str "John Doe") accountNumber (str "123456789") (str "Bank A") (str "250.00") None.

Definition sample_stripe (useStripe : bool) (acc key : option jsstr) : StripeForm.t :=
  StripeForm.mk (str "Jane Smith") (str "GB29NWBK60161331926819") (str "HSBCGB2L")
    (str "HSBC") (str "8 Canada Square") (str "United Kingdom") (str "1000.00") (str "GBP")
    None useStripe acc key.

(** A wizard on the summary step with a committed domestic transfer. *)
Definition summary_wizard : wizard :=
  mkWizard domestic summary (Some (Dom (sample_domestic (str "1234567890")))) [] 0 0 0.

(** A wizard on the form step, nothing committed yet. *)
Definition form_wizard : wizard := mkWizard domestic form None [] 0 0 0.

(* ------------------------------------------------------------------ *)
(** ** Amount input, form store, new transfer *)

(** A code unit kept by the amount input: [0-9] or ['.']. *)
Definition is_amount_char (c : N) : bool := ((48 <=? c) && (c <=? 57)) || (c =? 46).

(** The amount input's [onChange]: [e.target.value.replace(/[^0-9.]/g, '')]
    (a negated class also matches line terminators). *)
Definition sanitize_amount (s : jsstr) : jsstr := List.filter is_amount_char s.

(** react-hook-form's store: the current values and the default values
    that [reset()] returns to. [reset(values)] without [keepDefaultValues]
    also makes [values] the new default values. *)
Record form_store := mkStore {
  values : gmap string jsstr;
  default_vals : gmap string jsstr
}.

(** [useForm({ defaultValues })] *)
Definition useForm_init (activeTab : tab) : form_store :=
  mkStore (default_values activeTab) (default_values activeTab).

(** [form.reset(values)] *)
Definition form_reset_to (v : gmap string jsstr) (fs : form_store) : form_store :=
  mkStore v v.

(** [form.reset()] *)
Definition form_reset (fs : form_store) : form_store :=
  mkStore (default_vals fs) (default_vals fs).

(** A field edited by the user ([field.onChange(value)]). *)
Definition set_field (k : string) (x : jsstr) (fs : form_store) : form_store :=
  mkStore (<[k := x]> (values fs)) (default_vals fs).

Definition set_fields (edits : list (string * jsstr)) (fs : form_store) : form_store :=
  fold_left (fun fs' kx => set_field kx.1 kx.2 fs') edits fs.

(** The [useEffect] on [activeTab]: [form.reset({...})] built from the
    current values with [form.getValues]. *)
Definition tab_effect (activeTab : tab) (fs : form_store) : form_store :=
  form_reset_to (tab_change_reset activeTab (values fs)) fs.

(** [handleNewTransfer]: [form.reset(); setStep("form"); setFormData(null)];
    the reset also clears the form errors. Timeouts already scheduled are
    not cleared. *)
Definition handleNewTransfer (w : wizard) (fs : form_store) : wizard * form_store :=
  (mkWizard (activeTab w) form None [] (pending w) (confirmed w) (success_toasts w),
   form_reset fs).

(* ------------------------------------------------------------------ *)
(** ** Transaction identifiers ([createTransfer] of the transfer service) *)

(** Decimal digits of [n], most significant first, with [fuel] steps. *)
Fixpoint to_digits (fuel : nat) (n : N) : jsstr :=
  match fuel with
  | O => []
  | S f => if n =? 0 then [] else to_digits f (n / 10) ++ [48 + n mod 10]
  end.

(** [n.toString()] for a non-negative integer [n]. *)
Definition N_toString (n : N) : jsstr :=
  if n =? 0 then [48] else to_digits (N.to_nat (N.size n)) n.

(** [s.padStart(len, c)] with a one-code-unit fill string. *)
Definition pad_start (len : nat) (c : N) (s : jsstr) : jsstr :=
  if (len <=? length s)%nat then s else repeat c (len - length s) ++ s.

(** [createTransfer]'s identifier:
    ["TXN" + Math.floor(Math.random() * 1000000).toString().padStart(6, "0")],
    for [r] the value of [Math.floor(Math.random() * 1000000)]. *)
Definition transaction_id (r : N) : jsstr :=
  str "TXN" ++ pad_start 6 48 (N_toString r).

(** The fields that the Stripe-enabled schema of [TransferForm.tsx]
    shares with [internationalFormSchema] of [part_000]. *)
Definition stripe_as_international (d : StripeForm.t) : International.t :=
  International.mk (StripeForm.recipientName d) (StripeForm.iban d) (StripeForm.swiftCode d)
    (StripeForm.bankName d) (StripeForm.bankAddress d) (StripeForm.bankCountry d)
    (StripeForm.amount d) (StripeForm.currency d) (StripeForm.description d).

(* ------------------------------------------------------------------ *)
(** ** Lemmas on [slice] and the masks *)

(** Sample evaluations. *)
Example mask_account_ex : mask_account (str "1234567890") = str "******7890".
Proof. reflexivity. Qed.
Example mask_iban_ex :
  mask_iban (str "GB29NWBK60161331926819")
  = str "GB29" ++ iban_mask_token ++ str "6819".
Proof. reflexivity. Qed.
Example number_ex1 : js_Number (str " 12.50 ") = JFin false 1250 (-2).
Proof. reflexivity. Qed.
Example number_ex2 : js_Number (str "0x1F") = JFin false 31 0.
Proof. reflexivity. Qed.
Example number_ex3 : js_Number (str "1.2.3") = JNaN.
Proof. reflexivity. Qed.
Example amount_ex : map amount_refine
  [str "0"; str "-5"; str "abc"; str "12.50"; str "0.01"; str ""; str "1e-400"; str ".5"]
  = [false; false; false; true; true; false; false; true].
Proof. vm_compute. reflexivity. Qed.

Lemma js_slice_suffix4 (s : jsstr) :
  (4 <= length s)%nat -> js_slice s (-4)%Z None = drop (length s - 4) s.
Proof.
  intros H. unfold js_slice, rel_index, js_length. simpl.
  rewrite Z.max_l by lia.
  replace (Z.to_nat (Z.of_nat (length s) + -4)) with (length s - 4)%nat by lia.
  replace (Z.to_nat (Z.of_nat (length s) - (Z.of_nat (length s) + -4))) with 4%nat by lia.
  apply take_ge. rewrite length_drop. lia.
Qed.

Lemma js_slice_drop_last4 (s : jsstr) :
  (4 <= length s)%nat -> js_slice s 0 (Some (-4)%Z) = take (length s - 4) s.
Proof.
  intros H. unfold js_slice, rel_index, js_length. simpl.
  rewrite Z.max_l by lia.
  replace (Z.to_nat (Z.of_nat (length s) + -4 - Z.min 0 (Z.of_nat (length s))))
    with (length s - 4)%nat by lia.
  replace (Z.to_nat (Z.min 0 (Z.of_nat (length s)))) with 0%nat by lia.
  reflexivity.
Qed.

Lemma js_slice_first4 (s : jsstr) :
  (4 <= length s)%nat -> js_slice s 0 (Some 4%Z) = take 4 s.
Proof.
  intros H. unfold js_slice, rel_index, js_length. simpl.
  replace (Z.to_nat (Z.min 4 (Z.of_nat (length s)) - Z.min 0 (Z.of_nat (length s))))
    with 4%nat by lia.
  replace (Z.to_nat (Z.min 0 (Z.of_nat (length s)))) with 0%nat by lia.
  reflexivity.
Qed.

Lemma js_slice_short (s : jsstr) :
  (length s < 4)%nat -> js_slice s 0 (Some (-4)%Z) = [] /\ js_slice s (-4)%Z None = s.
Proof.
  intros H. unfold js_slice, rel_index, js_length. simpl. split.
  - rewrite Z.max_r by lia.
    replace (Z.to_nat (0 - Z.min 0 (Z.of_nat (length s)))) with 0%nat by lia.
    reflexivity.
  - rewrite Z.max_r by lia. simpl.
    rewrite Z.sub_0_r, Nat2Z.id. apply take_ge. lia.
Qed.

Lemma length_replace_dot_star (s : jsstr) : length (replace_dot_star s) = length s.
Proof. apply length_map. Qed.

Lemma mask_account_long (acc : jsstr) :
  (4 <= length acc)%nat ->
  mask_account acc = replace_dot_star (take (length acc - 4) acc) ++ drop (length acc - 4) acc.
Proof.
  intros H. unfold mask_account. rewrite js_slice_drop_last4, js_slice_suffix4 by done.
  reflexivity.
Qed.

Lemma length_mask_account (acc : jsstr) :
  (4 <= length acc)%nat -> length (mask_account acc) = length acc.
Proof.
  intros H. rewrite mask_account_long by done.
  rewrite length_app, length_replace_dot_star, length_take, length_drop. lia.
Qed.

Lemma length_mask_iban (iban : jsstr) :
  (4 <= length iban)%nat -> length (mask_iban iban) = 17%nat.
Proof.
  intros H. unfold mask_iban. rewrite js_slice_first4, js_slice_suffix4 by done.
  rewrite !length_app, length_take, length_drop. unfold iban_mask_token.
  rewrite repeat_length. lia.
Qed.

(* ------------------------------------------------------------------ *)
(** ** Lemmas on the resolver's errors *)

Lemma first_error_app (f : field) (l1 l2 : list issue) :
  first_error f (l1 ++ l2) =
  match first_error f l1 with Some m => Some m | None => first_error f l2 end.
Proof.
  induction l1 as [|[g m] r IH]; simpl; [reflexivity|].
  destruct (decide (f = g)); [reflexivity | exact IH].
Qed.

Lemma first_error_issues_at (f g : field) (ms : list string) :
  first_error f (issues_at g ms) = if decide (f = g) then head ms else None.
Proof.
  destruct ms as [|m ms]; simpl.
  - destruct (decide (f = g)); reflexivity.
  - destruct (decide (f = g)); [reflexivity|].
    induction ms as [|m' ms IH]; simpl; [reflexivity|].
    destruct (decide (f = g)); [contradiction | exact IH].
Qed.

Lemma issues_nil_iff (iss : list issue) :
  iss = [] <-> forall f, first_error f iss = None.
Proof.
  split.
  - intros -> f. reflexivity.
  - destruct iss as [|[g m] r]; intros H; [reflexivity|].
    specialize (H g). simpl in H. destruct (decide (g = g)); [discriminate | contradiction].
Qed.

Lemma amount_refine_spec (s : jsstr) : amount_refine s = spec_amount_positive s.
Proof. unfold amount_refine, spec_amount_positive. destruct (js_Number s); reflexivity. Qed.

Ltac errors_simpl :=
  rewrite ?first_error_app, ?first_error_issues_at; cbn -[Nat.leb Nat.ltb Nat.eqb].

(** Closes [(E = None <-> rule = true) /\ (forall m, E = Some m -> m <> "")]
    for one field, by cases on its length tests. *)
Ltac settle_field :=
  unfold z_min, z_max, z_refine; rewrite ?amount_refine_spec;
  repeat (match goal with
          | |- context [(?a <? ?b)%nat] => destruct (Nat.ltb_spec a b)
          | |- context [(?a <=? ?b)%nat] => destruct (Nat.leb_spec a b)
          | |- context [(?a =? ?b)%nat] => destruct (Nat.eqb_spec a b)
          | |- context [spec_amount_positive ?s] => destruct (spec_amount_positive s)
          end; cbn -[Nat.leb Nat.ltb Nat.eqb]);
  try (exfalso; lia);
  (split;
   [ split; intro; first [reflexivity | discriminate | lia]
   | intros m Hm;
     first [ discriminate Hm
           | injection Hm as <-; unfold msg_name, msg_amount, msg_bank; discriminate ] ]).

(** Each field's error is present exactly when the spec's rule for that
    field fails, and every message is non-empty. *)
Lemma transfer_field_error (v : TransferFormValues) (f : field) :
  (first_error f (transfer_issues v) = None <-> spec_field_ok v f = true)
  /\ (forall m, first_error f (transfer_issues v) = Some m -> m <> ""%string).
Proof.
  destruct v as [[] | []]; destruct f;
    unfold transfer_issues, domestic_issues, international_issues;
    errors_simpl; settle_field.
Qed.

Lemma transfer_issues_nil_iff (v : TransferFormValues) :
  transfer_issues v = [] <-> forall f, spec_field_ok v f = true.
Proof.
  rewrite issues_nil_iff. split; intros H f; apply (transfer_field_error v f), H.
Qed.

Lemma handleSubmit_valid (w : wizard) (v : TransferFormValues) :
  transfer_issues v = [] ->
  handleSubmit w v = mkWizard (activeTab w) summary (Some v) [] (pending w) (confirmed w)
                       (success_toasts w).
Proof. intros H. unfold handleSubmit, safe_parse. rewrite H. reflexivity. Qed.

Lemma handleSubmit_invalid (w : wizard) (v : TransferFormValues) :
  transfer_issues v <> [] ->
  handleSubmit w v = mkWizard (activeTab w) (step w) (formData w) (transfer_issues v)
                       (pending w) (confirmed w) (success_toasts w).
Proof.
  intros H. unfold handleSubmit, safe_parse.
  destruct (transfer_issues v); [contradiction | reflexivity].
Qed.

(* ================================================================== *)
(** * Properties *)

(** C1: when every required field of the active variant satisfies its
    rule, submitting from the form step moves to the summary step and
    commits exactly the submitted values. *)
Theorem submit_valid_commits_draft (w : wizard) (v : TransferFormValues) :
  step w = form ->
  (forall f, spec_field_ok v f = true) ->
  step (handleSubmit w v) = summary /\ formData (handleSubmit w v) = Some v.
Proof.
  intros _ Hok. rewrite handleSubmit_valid by (apply transfer_issues_nil_iff; exact Hok).
  split; reflexivity.
Qed.

(** C2: when some required field violates its rule, submitting keeps the
    form step and the committed values, reports a non-empty message for
    each violated field and none for any field that satisfies its rule. *)
Theorem submit_invalid_reports_violations (w : wizard) (v : TransferFormValues) :
  step w = form ->
  (exists f, spec_field_ok v f = false) ->
  let w' := handleSubmit w v in
  step w' = form /\ formData w' = formData w /\
  (forall f,
     (spec_field_ok v f = false -> exists m, first_error f (errors w') = Some m /\ m <> ""%string)
     /\ (spec_field_ok v f = true -> first_error f (errors w') = None)).
Proof.
  intros Hform [g Hg] w'. subst w'.
  rewrite handleSubmit_invalid.
  2: { rewrite transfer_issues_nil_iff. intros H. rewrite H in Hg. discriminate. }
  cbn [step formData errors]. split; [exact Hform | split; [reflexivity |]].
  intros f. destruct (transfer_field_error v f) as [Hiff Hne]. split.
  - intros Hf. destruct (first_error f (transfer_issues v)) as [m|] eqn:E.
    + exists m. split; [reflexivity | exact (Hne m eq_refl)].
    + rewrite (proj1 Hiff eq_refl) in Hf. discriminate.
  - intros Hf. apply Hiff, Hf.
Qed.

(** C3: the amount rule accepts a string exactly when [Number] parses it
    to a number greater than zero; "0", "-5" and "abc" are rejected with
    the message on [amount], "12.50" and "0.01" are accepted. *)
Theorem amount_rule_positive_number :
  (forall s, amount_refine s = true <->
             js_Number s <> JNaN /\ js_gt_zero (js_Number s) = true)
  /\ (forall a, a = str "0" \/ a = str "-5" \/ a = str "abc" ->
        (forall r acc rt b desc,
           first_error Famount (domestic_issues (Domestic.mk r acc rt b a desc)) = Some msg_amount)
        /\ (forall r ib sw b ad co cur desc,
              first_error Famount
                (international_issues (International.mk r ib sw b ad co a cur desc))
              = Some msg_amount))
  /\ amount_refine (str "12.50") = true /\ amount_refine (str "0.01") = true.
Proof.
  split; [| split; [| split; reflexivity]].
  - intros s. unfold amount_refine. destruct (js_Number s); simpl;
      (split; [intros H; split; [discriminate | exact H] | intros [_ H]; exact H])
      || (split; [discriminate | intros [H _]; contradiction]).
  - intros a Ha.
    assert (Hr : amount_refine a = false) by (destruct Ha as [->|[->| ->]]; reflexivity).
    split; intros; unfold domestic_issues, international_issues; errors_simpl;
      unfold z_min, z_max, z_refine; rewrite Hr;
      repeat (match goal with
              | |- context [(?x <? ?y)%nat] => destruct (x <? y)%nat
              end; cbn -[Nat.leb Nat.ltb Nat.eqb]); reflexivity.
Qed.

(** C10: the routing-number rule accepts a string exactly when its length
    is 9, whatever its characters: "abcdefghi" passes, although the
    message speaks of digits. *)
Theorem routingNumber_rule_is_length_9 :
  (forall d : Domestic.t,
     first_error FroutingNumber (domestic_issues d) = None
     <-> length (Domestic.routingNumber d) = 9%nat)
  /\ first_error FroutingNumber
       (domestic_issues (Domestic.mk (str "John Doe") (str "1234567890") (str "abcdefghi")
                           (str "Bank A") (str "250.00") None)) = None
  /\ (forall r acc b a desc,
        first_error FroutingNumber (domestic_issues (Domestic.mk r acc (str "12345678") b a desc))
        = Some "Routing number must be 9 digits."%string).
Proof.
  split; [| split; [reflexivity |]].
  - intros d. pose proof (transfer_field_error (Dom d) FroutingNumber) as [H _].
    unfold transfer_issues in H. rewrite H. simpl. apply Nat.eqb_eq.
  - intros. unfold domestic_issues; errors_simpl. reflexivity.
Qed.

Lemma missing_or_shorter_spec (s : option jsstr) (n : nat) :
  (1 <= n)%nat -> missing_or_shorter s n = negb (has_min_length s n).
Proof.
  intros Hn. destruct s as [[|c v]|]; simpl; try reflexivity.
  - destruct n; [lia | reflexivity].
  - destruct (Nat.ltb_spec (S (length v)) n), (Nat.leb_spec n (S (length v))); simpl;
      reflexivity || lia.
Qed.

Lemma stripe_object_no_stripe_error (d : StripeForm.t) (f : field) :
  f = FuseStripe \/ f = FstripeAccountId \/ f = FstripePublishableKey ->
  first_error f (stripe_object_issues d) = None.
Proof.
  intros [->|[->| ->]]; unfold stripe_object_issues; errors_simpl; reflexivity.
Qed.

(** C4: in the Stripe-enabled form the Stripe fields are required exactly
    when [useStripe] is set; a failure is reported on the Stripe field's
    own path and never on [useStripe]. With [useStripe] set and an empty
    [stripeAccountId] (everything else valid) the only error is on
    [stripeAccountId]. *)
Theorem stripe_fields_conditionally_required :
  (forall d : StripeForm.t,
     (stripe_form_issues d = [] <->
        stripe_object_issues d = [] /\
        (StripeForm.useStripe d = false \/
         (has_min_length (StripeForm.stripeAccountId d) 3 = true /\
          has_min_length (StripeForm.stripePublishableKey d) 10 = true)))
     /\ (first_error FstripeAccountId (stripe_form_issues d) <> None <->
           StripeForm.useStripe d = true /\ has_min_length (StripeForm.stripeAccountId d) 3 = false)
     /\ (first_error FstripePublishableKey (stripe_form_issues d) <> None <->
           StripeForm.useStripe d = true
           /\ has_min_length (StripeForm.stripePublishableKey d) 10 = false)
     /\ first_error FuseStripe (stripe_form_issues d) = None)
  /\ stripe_form_issues (sample_stripe true (Some []) (Some (str "pk_test_51HxYz")))
     = [(FstripeAccountId, "Stripe Account ID is required when using Stripe."%string)].
Proof.
  split; [| vm_compute; reflexivity].
  intros d. unfold stripe_form_issues.
  rewrite !first_error_app, !stripe_object_no_stripe_error by tauto.
  unfold stripe_refines.
  rewrite !missing_or_shorter_spec by lia.
  destruct (StripeForm.useStripe d),
           (has_min_length (StripeForm.stripeAccountId d) 3),
           (has_min_length (StripeForm.stripePublishableKey d) 10);
    cbn; rewrite ?app_nil_r;
    repeat split; intros; try tauto; try discriminate;
    repeat match goal with
           | H : _ /\ _ |- _ => destruct H
           | H : _ \/ _ |- _ => destruct H
           | H : _ ++ _ = [] |- _ => apply app_eq_nil in H
           end;
    try discriminate; try tauto.
Qed.

(** C5 as stated fails: two confirmations in a row issue two simulated
    submissions (and two success toasts), not one. *)
Lemma double_confirm_issues_two_submissions :
  let w := run summary_wizard [Confirm; Confirm; Tick; Tick] in
  confirmed w = 2%nat /\ success_toasts w = 2%nat /\ confirmed w <> 1%nat.
Proof. vm_compute. split; [reflexivity | split; [reflexivity | discriminate]]. Qed.

(** C5 (amended): [handleConfirmTransfer] has no pending guard; each call
    issues its own simulated submission. After two calls the step becomes
    [success] when the first timeout fires and stays [success] when the
    second fires; two submissions and two success toasts are issued. *)
Theorem double_confirm_each_call_submits (w : wizard) :
  let w1 := run w [Confirm; Confirm; Tick] in
  let w2 := handle w1 Tick in
  step w1 = success /\ step w2 = success
  /\ confirmed w2 = (confirmed w + 2)%nat
  /\ success_toasts w1 = (success_toasts w + 1)%nat
  /\ success_toasts w2 = (success_toasts w + 2)%nat
  /\ pending w2 = pending w.
Proof.
  destruct w as [t s fd er p c n]. cbn.
  repeat split; lia.
Qed.

(** C6 fails on an account number holding a line separator: [/./] does
    not match line terminators, so U+2028 is shown verbatim among the
    masked characters. Such an account number passes validation. The
    example of the spec is masked as described. *)
Theorem mask_account_keeps_line_terminators :
  let acc := str "1234" ++ [0x2028] ++ str "5678" in
  transfer_issues (Dom (sample_domestic acc)) = []
  /\ mask_account acc = str "****" ++ [0x2028] ++ str "5678"
  /\ mask_account acc <> repeat 42 5 ++ str "5678"
  /\ transfer_issues (Dom (sample_domestic (str "1234567890"))) = []
  /\ mask_account (str "1234567890") = str "******7890".
Proof.
  vm_compute. split; [reflexivity | split; [reflexivity | split; [discriminate | split; reflexivity]]].
Qed.

(** C7 as stated fails: a 3-character account number is shown verbatim. *)
Lemma short_account_shown_verbatim :
  mask_account (str "123") = str "123" /\ mask_account (str "123") <> repeat 42 3.
Proof. split; [reflexivity | discriminate]. Qed.

(** C7 (amended): the masking has no fallback for short account numbers:
    one of fewer than 4 characters is displayed verbatim; validation
    (minimum 8) keeps such an account number from being committed. *)
Theorem short_account_unmasked_and_rejected (acc : jsstr) :
  (length acc < 4)%nat ->
  mask_account acc = acc
  /\ (forall r rt b a desc,
        first_error FaccountNumber (domestic_issues (Domestic.mk r acc rt b a desc))
        = Some "Account number must be at least 8 characters."%string).
Proof.
  intros H. split.
  - unfold mask_account. destruct (js_slice_short acc H) as [-> ->]. reflexivity.
  - intros. unfold domestic_issues. errors_simpl. unfold z_min.
    destruct (Nat.ltb_spec (length acc) 8); [reflexivity | lia].
Qed.

Lemma short_account_unmasked_and_rejected_witness :
  (length (str "123") < 4)%nat /\ mask_account (str "123") = str "123".
Proof.
  split; [vm_compute; lia | apply (short_account_unmasked_and_rejected (str "123")); vm_compute; lia].
Defined.

(** C8: re-extracting the visible parts of a mask gives back the
    original's: the last 4 characters of the account number, and the first
    4 and last 4 of the IBAN, whose middle is the fixed 9-bullet token;
    the masked IBAN always has 17 characters. *)
Theorem masking_keeps_visible_ends (acc iban : jsstr) :
  (4 <= length acc)%nat -> (15 <= length iban)%nat ->
  js_slice (mask_account acc) (-4)%Z None = js_slice acc (-4)%Z None
  /\ js_slice (mask_iban iban) 0 (Some 4%Z) = js_slice iban 0 (Some 4%Z)
  /\ js_slice (mask_iban iban) (-4)%Z None = js_slice iban (-4)%Z None
  /\ take 9 (drop 4 (mask_iban iban)) = iban_mask_token
  /\ length (mask_iban iban) = 17%nat.
Proof.
  intros Ha Hi.
  assert (Hi4 : (4 <= length iban)%nat) by lia.
  assert (Hm : (4 <= length (mask_iban iban))%nat) by (rewrite length_mask_iban; lia).
  split; [| split; [| split; [| split]]].
  - rewrite !js_slice_suffix4 by (try rewrite length_mask_account; lia).
    rewrite length_mask_account by done. rewrite mask_account_long by done.
    apply drop_app_length'. rewrite length_replace_dot_star, length_take. lia.
  - rewrite !js_slice_first4 by done. unfold mask_iban.
    rewrite js_slice_first4 by done.
    apply take_app_length'. rewrite length_take. lia.
  - rewrite !js_slice_suffix4 by done. rewrite length_mask_iban by done.
    unfold mask_iban. rewrite js_slice_first4, js_slice_suffix4 by done.
    rewrite app_assoc. apply drop_app_length'.
    rewrite length_app, length_take. unfold iban_mask_token. rewrite repeat_length. lia.
  - unfold mask_iban. rewrite js_slice_first4 by done.
    rewrite drop_app_length' by (rewrite length_take; lia).
    apply take_app_length'. unfold iban_mask_token. rewrite repeat_length. reflexivity.
  - apply length_mask_iban. done.
Qed.

Lemma masking_keeps_visible_ends_witness :
  (4 <= length (str "1234567890"))%nat /\ (15 <= length (str "GB29NWBK60161331926819"))%nat
  /\ js_slice (mask_account (str "1234567890")) (-4)%Z None = str "7890".
Proof.
  split; [vm_compute; lia | split; [vm_compute; lia |]].
  destruct (masking_keeps_visible_ends (str "1234567890") (str "GB29NWBK60161331926819"))
    as [H _]; [vm_compute; lia | vm_compute; lia |].
  rewrite H. reflexivity.
Defined.

(** C9 as stated fails: switching to the international tab removes the
    domestic fields from the form values instead of resetting them to
    [""], and switching to the domestic tab leaves no [currency]. *)
Lemma tab_change_drops_other_variant :
  tab_change_reset international (default_values domestic) !! "accountNumber"%string = None
  /\ tab_change_reset domestic (default_values international) !! "currency"%string = None.
Proof. split; reflexivity. Qed.

(** C9 (amended): the tab-change reset sets [transferType] to the new tab,
    resets the new variant's own fields to their defaults, removes the
    other variant's fields, and keeps [recipientName], [amount],
    [description] and [bankName] (an absent one becomes [""]). *)
Theorem tab_change_resets_active_variant (t : tab) (vals : gmap string jsstr) :
  let r := tab_change_reset t vals in
  r !! "transferType"%string = Some (tab_name t)
  /\ r !! "recipientName"%string = Some (default [] (vals !! "recipientName"%string))
  /\ r !! "amount"%string = Some (default [] (vals !! "amount"%string))
  /\ r !! "description"%string = Some (default [] (vals !! "description"%string))
  /\ r !! "bankName"%string = Some (default [] (vals !! "bankName"%string))
  /\ match t with
     | domestic =>
         r !! "accountNumber"%string = Some [] /\ r !! "routingNumber"%string = Some []
         /\ r !! "iban"%string = None /\ r !! "swiftCode"%string = None
         /\ r !! "bankAddress"%string = None /\ r !! "bankCountry"%string = None
         /\ r !! "currency"%string = None
     | international =>
         r !! "iban"%string = Some [] /\ r !! "swiftCode"%string = Some []
         /\ r !! "bankAddress"%string = Some [] /\ r !! "bankCountry"%string = Some []
         /\ r !! "currency"%string = Some (str "USD")
         /\ r !! "accountNumber"%string = None /\ r !! "routingNumber"%string = None
     end.
Proof.
  assert (Hor : forall o : option jsstr, or_empty o = default [] o)
    by (intros [[|c s]|]; reflexivity).
  intros r. subst r. unfold tab_change_reset. rewrite !Hor.
  destruct t; repeat split; reflexivity.
Qed.

Lemma submit_valid_commits_draft_witness :
  step form_wizard = form
  /\ (forall f, spec_field_ok (Dom (sample_domestic (str "1234567890"))) f = true)
  /\ formData (handleSubmit form_wizard (Dom (sample_domestic (str "1234567890"))))
     = Some (Dom (sample_domestic (str "1234567890"))).
Proof.
  assert (Hok : forall f, spec_field_ok (Dom (sample_domestic (str "1234567890"))) f = true)
    by (intros []; vm_compute; reflexivity).
  split; [reflexivity | split; [exact Hok |]].
  apply (submit_valid_commits_draft form_wizard _ eq_refl Hok).
Defined.

Lemma submit_invalid_reports_violations_witness :
  spec_field_ok (Dom (sample_domestic (str "123"))) FaccountNumber = false
  /\ step (handleSubmit form_wizard (Dom (sample_domestic (str "123")))) = form.
Proof.
  assert (Hbad : spec_field_ok (Dom (sample_domestic (str "123"))) FaccountNumber = false)
    by (vm_compute; reflexivity).
  split; [exact Hbad |].
  apply (submit_invalid_reports_violations form_wizard (Dom (sample_domestic (str "123"))));
    [reflexivity | exists FaccountNumber; exact Hbad].
Defined.

Lemma amount_rule_positive_number_witness :
  first_error Famount
    (domestic_issues (Domestic.mk (str "John Doe") (str "1234567890") (str "123456789")
                        (str "Bank A") (str "abc") None))
  = Some msg_amount.
Proof.
  apply (proj1 (proj1 (proj2 amount_rule_positive_number) (str "abc")
                  (or_intror (or_intror eq_refl)))).
Defined.

Lemma stripe_fields_conditionally_required_witness :
  first_error FstripeAccountId (stripe_form_issues (sample_stripe true (Some []) None)) <> None.
Proof.
  apply (proj1 stripe_fields_conditionally_required (sample_stripe true (Some []) None)).
  split; vm_compute; reflexivity.
Defined.

(* ================================================================== *)
(** * Further properties of the code *)

(** ** Masks on any input *)

Lemma js_slice_first4_any (s : jsstr) : js_slice s 0 (Some 4%Z) = take 4 s.
Proof.
  destruct (Nat.le_gt_cases 4 (length s)) as [H|H]; [apply js_slice_first4, H|].
  unfold js_slice, rel_index, js_length. simpl.
  replace (Z.to_nat (Z.min 4 (Z.of_nat (length s)) - Z.min 0 (Z.of_nat (length s))))
    with (length s) by lia.
  replace (Z.to_nat (Z.min 0 (Z.of_nat (length s)))) with 0%nat by lia.
  rewrite drop_0, (take_ge s (length s)), (take_ge s 4) by lia. reflexivity.
Qed.

Lemma js_slice_suffix4_any (s : jsstr) : js_slice s (-4)%Z None = drop (length s - 4) s.
Proof.
  destruct (Nat.le_gt_cases 4 (length s)) as [H|H]; [apply js_slice_suffix4, H|].
  destruct (js_slice_short s H) as [_ ->].
  replace (length s - 4)%nat with 0%nat by lia. reflexivity.
Qed.

(** The masked account number has exactly as many characters as the
    account number, whatever its length. *)
Theorem mask_account_same_length (acc : jsstr) :
  length (mask_account acc) = length acc.
Proof.
  destruct (Nat.le_gt_cases 4 (length acc)) as [H|H].
  - apply length_mask_account, H.
  - unfold mask_account. destruct (js_slice_short acc H) as [-> ->]. reflexivity.
Qed.

(** No character of the account number before its last four is shown:
    each of the first [length - 4] characters of the mask is ['*'], or a
    line terminator (which [/./] does not match). *)
Theorem mask_account_hides_prefix (acc : jsstr) :
  Forall (fun c => c = 42 \/ is_line_terminator c = true)
    (take (length acc - 4) (mask_account acc)).
Proof.
  destruct (Nat.le_gt_cases 4 (length acc)) as [H|H].
  - rewrite mask_account_long by done.
    rewrite take_app_length' by (rewrite length_replace_dot_star, length_take; lia).
    apply List.Forall_forall. intros x Hx. unfold replace_dot_star in Hx.
    apply in_map_iff in Hx as [c [<- _]].
    destruct (is_line_terminator c) eqn:E; [right; exact E | left; reflexivity].
  - replace (length acc - 4)%nat with 0%nat by lia. constructor.
Qed.

(** The masked IBAN has [9 + 2 * min(4, length)] characters; an IBAN of
    at most 4 characters is shown whole on both sides of the token. *)
Theorem mask_iban_short_and_length (iban : jsstr) :
  length (mask_iban iban) = (9 + 2 * Nat.min 4 (length iban))%nat
  /\ ((length iban <= 4)%nat -> mask_iban iban = iban ++ iban_mask_token ++ iban).
Proof.
  unfold mask_iban. rewrite js_slice_first4_any, js_slice_suffix4_any. split.
  - rewrite !length_app, length_take, length_drop. unfold iban_mask_token.
    rewrite repeat_length. lia.
  - intros H. rewrite take_ge by lia.
    replace (length iban - 4)%nat with 0%nat by lia. reflexivity.
Qed.

Lemma mask_iban_short_and_length_witness :
  (length (str "AB") <= 4)%nat /\ mask_iban (str "AB") = str "AB" ++ iban_mask_token ++ str "AB".
Proof.
  split; [vm_compute; lia |].
  apply (proj2 (mask_iban_short_and_length (str "AB"))). vm_compute; lia.
Defined.

(** ** The amount input *)


Lemma sanitize_amount_chars (s : jsstr) :
  Forall (fun c => is_amount_char c = true) (sanitize_amount s).
Proof.
  induction s as [|c s IH]; simpl; [constructor|].
  destruct (is_amount_char c) eqn:E; [constructor|]; assumption.
Qed.

(** The amount input keeps exactly the digits and dots: what it produces
    contains nothing else, applying it again changes nothing, and it leaves
    a string unchanged exactly when that string has only digits and dots. *)
Theorem sanitize_amount_projection (s : jsstr) :
  Forall (fun c => is_amount_char c = true) (sanitize_amount s)
  /\ sanitize_amount (sanitize_amount s) = sanitize_amount s
  /\ (sanitize_amount s = s <-> Forall (fun c => is_amount_char c = true) s).
Proof.
  assert (Hid : forall l, Forall (fun c => is_amount_char c = true) l -> sanitize_amount l = l).
  { intros l Hl. induction Hl as [|c l Hc _ IH]; [reflexivity|].
    simpl. rewrite Hc, IH. reflexivity. }
  split; [apply sanitize_amount_chars|]. split.
  - apply Hid, sanitize_amount_chars.
  - split; [intros H; rewrite <- H; apply sanitize_amount_chars | apply Hid].
Qed.






(** ** Transaction identifiers *)

Lemma digits_mv_snoc (b : Z) (l : jsstr) (d : N) :
  digits_mv b (l ++ [d]) = (digits_mv b l * b + default 0 (digit_value b d))%Z.
Proof. unfold digits_mv. rewrite fold_left_app. reflexivity. Qed.

Lemma digits_mv_zeros (k : nat) (s : jsstr) : digits_mv 10 (repeat 48 k ++ s) = digits_mv 10 s.
Proof.
  unfold digits_mv. rewrite fold_left_app. f_equal.
  induction k as [|k IH]; [reflexivity|]. simpl. exact IH.
Qed.

Lemma digit_value_digit (d : N) : d < 10 -> digit_value 10 (48 + d) = Some (Z.of_N d).
Proof.
  intros H.
  assert (d = 0 \/ d = 1 \/ d = 2 \/ d = 3 \/ d = 4 \/ d = 5 \/ d = 6 \/ d = 7 \/ d = 8
          \/ d = 9) as Hd by lia.
  destruct Hd as [->|[->|[->|[->|[->|[->|[->|[->|[->| ->]]]]]]]]]; reflexivity.
Qed.

Lemma to_digits_value (fuel : nat) (n : N) :
  n < 10 ^ N.of_nat fuel -> digits_mv 10 (to_digits fuel n) = Z.of_N n.
Proof.
  revert n. induction fuel as [|f IH]; intros n Hn; simpl.
  - simpl in Hn. assert (n = 0) as -> by lia. reflexivity.
  - destruct (N.eqb_spec n 0) as [->|Hn0]; [reflexivity|].
    rewrite digits_mv_snoc, digit_value_digit by (apply N.mod_lt; lia). simpl.
    rewrite IH.
    + pose proof (N.div_mod n 10 ltac:(lia)) as Hdm. lia.
    + apply N.Div0.div_lt_upper_bound. rewrite Nat2N.inj_succ, N.pow_succ_r' in Hn. lia.
Qed.

Lemma to_digits_length (fuel k : nat) (n : N) :
  n < 10 ^ N.of_nat k -> (length (to_digits fuel n) <= k)%nat.
Proof.
  revert n k. induction fuel as [|f IH]; intros n k Hn; simpl; [lia|].
  destruct (N.eqb_spec n 0) as [->|Hn0]; simpl; [lia|].
  destruct k as [|k]; [simpl in Hn; lia|].
  rewrite length_app. simpl.
  assert (length (to_digits f (n / 10)) <= k)%nat; [| lia].
  apply IH. apply N.Div0.div_lt_upper_bound. rewrite Nat2N.inj_succ, N.pow_succ_r' in Hn. lia.
Qed.

Lemma to_digits_chars (fuel : nat) (n : N) :
  Forall (fun c => 48 <= c <= 57) (to_digits fuel n).
Proof.
  revert n. induction fuel as [|f IH]; intros n; simpl; [constructor|].
  destruct (n =? 0); [constructor|]. apply Forall_app. split; [apply IH|].
  constructor; [|constructor]. pose proof (N.mod_lt n 10 ltac:(lia)).
  set (x := n mod 10) in *. clearbody x. lia.
Qed.

Lemma N_toString_value (n : N) : digits_mv 10 (N_toString n) = Z.of_N n.
Proof.
  unfold N_toString. destruct (N.eqb_spec n 0) as [->|Hn]; [reflexivity|].
  apply to_digits_value. rewrite N2Nat.id.
  eapply N.lt_le_trans; [apply N.size_gt|]. apply N.pow_le_mono_l. lia.
Qed.

(** [createTransfer]'s identifier for [r = Math.floor(Math.random() * 1000000)]
    (so [r < 1000000]) is ["TXN"] followed by exactly six decimal digits,
    and those digits read back as [r]. *)
Theorem transaction_id_format (r : N) :
  r < 1000000 ->
  length (transaction_id r) = 9%nat
  /\ take 3 (transaction_id r) = str "TXN"
  /\ Forall (fun c => 48 <= c <= 57) (drop 3 (transaction_id r))
  /\ digits_mv 10 (drop 3 (transaction_id r)) = Z.of_N r.
Proof.
  intros Hr.
  assert (Hlen : (length (N_toString r) <= 6)%nat).
  { unfold N_toString. destruct (r =? 0); [simpl; lia|].
    apply to_digits_length. simpl. lia. }
  assert (Hch : Forall (fun c => 48 <= c <= 57) (N_toString r)).
  { unfold N_toString. destruct (r =? 0); [constructor; [lia | constructor]|].
    apply to_digits_chars. }
  unfold transaction_id. change (str "TXN") with [84; 88; 78]. simpl.
  unfold pad_start. destruct (Nat.leb_spec 6 (length (N_toString r))) as [H6|H6].
  - repeat split; [lia | exact Hch | apply N_toString_value].
  - repeat split.
    + rewrite length_app, repeat_length. lia.
    + apply Forall_app. split; [apply List.Forall_forall; intros x Hx;
        apply repeat_spec in Hx; subst x; lia | exact Hch].
    + rewrite drop_0, digits_mv_zeros. apply N_toString_value.
Qed.

Lemma transaction_id_format_witness :
  42 < 1000000 /\ transaction_id 42 = str "TXN000042"
  /\ digits_mv 10 (drop 3 (transaction_id 42)) = 42%Z.
Proof.
  split; [lia|]. split; [vm_compute; reflexivity|].
  apply (transaction_id_format 42); lia.
Defined.

(** ** Tab changes and New Transfer *)

Lemma or_empty_idem (o : option jsstr) : or_empty (Some (or_empty o)) = or_empty o.
Proof. destruct o as [[|c s]|]; reflexivity. Qed.

Lemma tab_change_reset_common (t : tab) (vals : gmap string jsstr) (k : string) :
  k = "recipientName"%string \/ k = "amount"%string \/ k = "description"%string
  \/ k = "bankName"%string ->
  tab_change_reset t vals !! k = Some (or_empty (vals !! k)).
Proof. intros Hk. destruct t; destruct Hk as [->|[->|[->| ->]]]; reflexivity. Qed.

Lemma tab_change_reset_ext (t : tab) (v1 v2 : gmap string jsstr) :
  (forall k, k = "recipientName"%string \/ k = "amount"%string \/ k = "description"%string
             \/ k = "bankName"%string -> or_empty (v1 !! k) = or_empty (v2 !! k)) ->
  tab_change_reset t v1 = tab_change_reset t v2.
Proof.
  intros H. unfold tab_change_reset.
  rewrite (H "recipientName"%string), (H "amount"%string), (H "description"%string),
    (H "bankName"%string) by tauto.
  reflexivity.
Qed.

(** Switching tabs twice gives the same form values as switching once to
    the last tab: the reset only reads the four carried-over fields, and
    it writes them back unchanged. *)
Theorem tab_change_reset_twice (t t' : tab) (vals : gmap string jsstr) :
  tab_change_reset t (tab_change_reset t' vals) = tab_change_reset t vals.
Proof.
  apply tab_change_reset_ext. intros k Hk.
  rewrite tab_change_reset_common by exact Hk. apply or_empty_idem.
Qed.

(** The reset of a tab change applied to the default values of any tab
    gives the default values of the new tab; in particular the effect's
    first run, on mount, leaves the freshly initialised form unchanged. *)
Theorem tab_change_reset_defaults (t t' : tab) :
  tab_change_reset t (default_values t') = default_values t
  /\ tab_effect t (useForm_init t) = useForm_init t.
Proof.
  assert (H : forall t t', tab_change_reset t (default_values t') = default_values t)
    by (intros [] []; reflexivity).
  split; [apply H|]. unfold tab_effect, form_reset_to, useForm_init. simpl.
  rewrite H. reflexivity.
Qed.

Lemma set_fields_defaults (edits : list (string * jsstr)) (fs : form_store) :
  default_vals (set_fields edits fs) = default_vals fs.
Proof.
  revert fs. induction edits as [|[k x] r IH]; intros fs; [reflexivity|].
  simpl. rewrite IH. reflexivity.
Qed.

(** After a tab switch, whatever the user types, [handleNewTransfer]'s
    [form.reset()] brings the form back to the values set by that tab
    switch (they became the default values), not to [useForm]'s
    original defaults. *)
Theorem new_transfer_restores_tab_reset (w : wizard) (t : tab) (fs : form_store)
    (edits : list (string * jsstr)) :
  snd (handleNewTransfer w (set_fields edits (tab_effect t fs))) = tab_effect t fs
  /\ values (snd (handleNewTransfer w (set_fields edits (tab_effect t fs))))
     = tab_change_reset t (values fs).
Proof.
  unfold handleNewTransfer, form_reset. simpl. rewrite set_fields_defaults.
  split; reflexivity.
Qed.

(** A timeout scheduled by an earlier confirmation is not cancelled by
    [handleNewTransfer]: when it fires, the wizard jumps from the fresh
    form to the success step, with no transfer data, and shows one more
    success toast. *)
Theorem stale_timer_after_new_transfer (w : wizard) (fs : form_store) :
  (0 < pending w)%nat ->
  let w' := timer_fires (fst (handleNewTransfer w fs)) in
  step (fst (handleNewTransfer w fs)) = form
  /\ step w' = success /\ formData w' = None
  /\ success_toasts w' = S (success_toasts w) /\ pending w' = Nat.pred (pending w).
Proof.
  intros Hp. unfold handleNewTransfer, timer_fires. simpl.
  destruct (pending w) as [|p]; [lia|]. repeat split.
Qed.

Lemma stale_timer_after_new_transfer_witness :
  (0 < pending (run summary_wizard [Confirm; Confirm; Tick]))%nat
  /\ step (timer_fires (fst (handleNewTransfer (run summary_wizard [Confirm; Confirm; Tick])
                               (useForm_init domestic)))) = success.
Proof.
  split; [vm_compute; lia|].
  apply (stale_timer_after_new_transfer (run summary_wizard [Confirm; Confirm; Tick])
           (useForm_init domestic)).
  vm_compute. lia.
Defined.

(** ** Submissions *)

(** Submitting and going back to edit never schedule a transfer, never
    show a success toast and never change the tab: only confirmations and
    timeouts touch those. *)
Theorem submit_and_edit_never_transfer (w : wizard) (es : list event) :
  Forall (fun e => e <> Confirm /\ e <> Tick) es ->
  pending (run w es) = pending w /\ confirmed (run w es) = confirmed w
  /\ success_toasts (run w es) = success_toasts w /\ activeTab (run w es) = activeTab w.
Proof.
  unfold run. revert w. induction es as [|e r IH]; intros w Hes; [repeat split|].
  inversion Hes as [|? ? [He1 He2] Hr]; subst. simpl.
  destruct (IH (handle w e) Hr) as (-> & -> & -> & ->).
  destruct e as [v| | |]; try contradiction; simpl; [|repeat split].
  unfold handleSubmit. destruct (safe_parse v); repeat split.
Qed.

Lemma submit_and_edit_never_transfer_witness :
  Forall (fun e => e <> Confirm /\ e <> Tick)
    [Submit (Dom (sample_domestic (str "12"))); EditBack;
     Submit (Dom (sample_domestic (str "1234567890")))]
  /\ confirmed (run form_wizard
       [Submit (Dom (sample_domestic (str "12"))); EditBack;
        Submit (Dom (sample_domestic (str "1234567890")))]) = 0%nat.
Proof.
  assert (HF : Forall (fun e => e <> Confirm /\ e <> Tick)
    [Submit (Dom (sample_domestic (str "12"))); EditBack;
     Submit (Dom (sample_domestic (str "1234567890")))])
    by (repeat constructor; discriminate).
  split; [exact HF|].
  apply (submit_and_edit_never_transfer form_wizard _ HF).
Defined.

(** A valid submission after going back to edit leaves the wizard exactly
    as if it had been the first submission: nothing of the earlier
    attempt (valid or not) remains. *)
Theorem resubmit_after_edit (w : wizard) (v v' : TransferFormValues) :
  transfer_issues v' = [] ->
  run w [Submit v; EditBack; Submit v'] = run w [Submit v'].
Proof.
  intros H. unfold run. simpl. rewrite !(handleSubmit_valid _ v' H).
  unfold handleSubmit, safe_parse. destruct (transfer_issues v); reflexivity.
Qed.

Lemma resubmit_after_edit_witness :
  transfer_issues (Dom (sample_domestic (str "1234567890"))) = []
  /\ run form_wizard [Submit (Dom (sample_domestic (str "12"))); EditBack;
                      Submit (Dom (sample_domestic (str "1234567890")))]
     = run form_wizard [Submit (Dom (sample_domestic (str "1234567890")))].
Proof.
  assert (H : transfer_issues (Dom (sample_domestic (str "1234567890"))) = [])
    by (vm_compute; reflexivity).
  split; [exact H|]. apply resubmit_after_edit. exact H.
Defined.

(** ** Schemas *)

(** With [useStripe] off, the Stripe-enabled schema of [TransferForm.tsx]
    reports exactly the issues of [part_000]'s [internationalFormSchema]
    on the shared fields. *)
Theorem stripe_schema_without_stripe (d : StripeForm.t) :
  StripeForm.useStripe d = false ->
  stripe_form_issues d = international_issues (stripe_as_international d).
Proof.
  intros H. unfold stripe_form_issues, stripe_refines. rewrite H. simpl.
  rewrite app_nil_r. destruct d; reflexivity.
Qed.

Lemma stripe_schema_without_stripe_witness :
  StripeForm.useStripe (sample_stripe false None None) = false
  /\ stripe_form_issues (sample_stripe false None None)
     = international_issues (stripe_as_international (sample_stripe false None None)).
Proof. split; [reflexivity|]. apply stripe_schema_without_stripe. reflexivity. Defined.

(** A routing number longer than 9 characters gets zod's default
    [max] message, since [.max(9)] has none of its own. *)
Theorem routing_too_long_default_message (d : Domestic.t) :
  (9 < length (Domestic.routingNumber d))%nat ->
  first_error FroutingNumber (domestic_issues d)
  = Some "String must contain at most 9 character(s)"%string.
Proof.
  intros H. unfold domestic_issues. errors_simpl. unfold z_min, z_max.
  destruct (Nat.ltb_spec (length (Domestic.routingNumber d)) 9); [lia|].
  destruct (Nat.ltb_spec 9 (length (Domestic.routingNumber d))); [reflexivity | lia].
Qed.

Lemma routing_too_long_default_message_witness :
  (9 < length (Domestic.routingNumber
                 (Domestic.mk (str "John Doe") (str "12345678") (str "1234567890")
                    (str "Bank A") (str "5") None)))%nat
  /\ first_error FroutingNumber
       (domestic_issues (Domestic.mk (str "John Doe") (str "12345678") (str "1234567890")
                           (str "Bank A") (str "5") None))
     = Some "String must contain at most 9 character(s)"%string.
Proof. split; [vm_compute; lia|]. apply routing_too_long_default_message. vm_compute; lia. Defined.

(** A SWIFT/BIC code longer than 11 characters gets zod's default [max]
    message, since [.max(11)] has none of its own. *)
Theorem swift_too_long_default_message (i : International.t) :
  (11 < length (International.swiftCode i))%nat ->
  first_error FswiftCode (international_issues i)
  = Some "String must contain at most 11 character(s)"%string.
Proof.
  intros H. unfold international_issues. errors_simpl. unfold z_min, z_max.
  destruct (Nat.ltb_spec (length (International.swiftCode i)) 8); [lia|].
  destruct (Nat.ltb_spec 11 (length (International.swiftCode i))); [reflexivity | lia].
Qed.

Lemma swift_too_long_default_message_witness :
  (11 < length (International.swiftCode
                  (International.mk (str "Jane Smith") (str "GB29NWBK60161331926819")
                     (str "HSBCGB2LXXXXX") (str "HSBC") (str "8 Canada Square")
                     (str "United Kingdom") (str "1000.00") (str "GBP") None)))%nat
  /\ first_error FswiftCode
       (international_issues
          (International.mk (str "Jane Smith") (str "GB29NWBK60161331926819")
             (str "HSBCGB2LXXXXX") (str "HSBC") (str "8 Canada Square")
             (str "United Kingdom") (str "1000.00") (str "GBP") None))
     = Some "String must contain at most 11 character(s)"%string.
Proof. split; [vm_compute; lia|]. apply swift_too_long_default_message. vm_compute; lia. Defined.
